(** * Paginated user synchronisation of the elba-security connectors

    Shallow embedding of
    - [syncUsers]           (apps/monday/src/inngest/functions/users/sync-users.ts),
    - [scheduleUserSync]    (the dropbox cron scheduler),
    - [unauthorizedMiddleware] (the github middleware, known through its test),
    and of the event runtime that dispatches the page-continuation events. *)

From stdpp Require Import gmap strings list.

Open Scope Z_scope.
#[local] Set Warnings "-register-all".

(** ** Errors thrown by the code and its collaborators *)

Inductive Error :=
  (** [new NonRetriableError(message, { cause })] of inngest *)
  | NonRetriableError (message : string) (cause : option Error)
  (** [RequestError] of octokit, with [response?.status] *)
  | RequestError (message : string) (response_status : option Z)
  (** [MondayError], with [response?.status] *)
  | MondayError (message : string) (response_status : option Z)
  (** [RangeError] thrown by [Date.prototype.toISOString] *)
  | RangeError (message : string)
  (** any other [Error] *)
  | GenericError (message : string).

(** ** A writer and error monad: the effects a run performs, in order,
    and either the thrown error or the returned value. *)

Section Run.
Context {E : Type}.

Definition Run (A : Type) : Type := list E * (Error + A).

Definition ret {A} (a : A) : Run A := ([], inr a).

Definition throw {A} (e : Error) : Run A := ([], inl e).

Definition emit (ef : E) : Run unit := ([ef], inr tt).

Definition bindR {A B} (m : Run A) (k : A -> Run B) : Run B :=
  match m with
  | (tr, inl e) => (tr, inl e)
  | (tr, inr a) => let '(tr', r) := k a in (tr ++ tr', r)
  end.

End Run.

Arguments Run : clear implicits.

Notation "x <-- m ;; k" := (bindR m (fun x => k))
  (at level 100, m at level 99, right associativity).
Notation "m ;;; k" := (bindR m (fun _ => k))
  (at level 100, right associativity).

(** ** JavaScript dates

    [new Date(t)] keeps a time value only within the range of dates
    (|t| <= 8.64e15 ms); otherwise it is an Invalid Date, on which
    [toISOString] throws a RangeError. The ISO string is represented
    by the instant it denotes. *)

Definition maxTimeValue : Z := 8640000000000000.

Definition new_Date (t : Z) : option Z :=
  if Z.abs t <=? maxTimeValue then Some t else None.

Definition toISOString (d : option Z) : Error + Z :=
  match d with
  | Some t => inr t
  | None => inl (RangeError "Invalid time value")
  end.

(** JavaScript truthiness of a [number | null] value. *)
Definition truthy (v : option Z) : bool :=
  match v with
  | None => false
  | Some n => negb (n =? 0)
  end.

(** * The monday page-sync worker *)

Module Monday.

(** [SynchronizeUsers['data']] *)
Record SyncJobState := {
  organisationId : string;
  region : string;
  isFirstSync : bool;
  syncStartedAt : Z;
  page : option Z;
}.

(** [MondayUser] as returned by [getUsers] *)
Record MondayUser := { mu_id : string; mu_name : string; mu_email : string }.

(** elba's [User] *)
Record User := {
  id : string;
  displayName : string;
  email : string;
  additionalEmails : list string;
}.

(** The result of [getUsers(token, page)]. *)
Record UsersPage := { users : list MondayUser; nextPage : option Z }.

(** The elba client of one invocation: [new Elba({ organisationId, region, ... })]
    (source id, API key and base URL are environment constants). *)
Record ElbaConfig := { elba_organisationId : string; elba_region : string }.

(** Observable calls of a worker invocation. *)
Inductive effect :=
  | GetUsers (token : string) (page : option Z)
  | UsersUpdate (elba : ElbaConfig) (users : list User)
  | UsersDelete (elba : ElbaConfig) (syncedBefore : Z)
  | SendEvent (name : string) (data : SyncJobState).

Inductive status := Ongoing | Completed.

(** The [Organisation] table, keyed by id, projected on its [token] column. *)
Abbreviation Database := (gmap string string).

(** The remote API: [getUsers(token, page)] resolves or throws. *)
Abbreviation UsersApi := (string -> option Z -> Error + UsersPage).

Definition formatElbaUser (user : MondayUser) : User := {|
  id := mu_id user;
  displayName := mu_name user;
  email := mu_email user;
  additionalEmails := [];
|}.

Definition event_name : string := "monday/users.page_sync.requested".

(** [{ ...event.data, page: nextPage }] *)
Definition with_page (data : SyncJobState) (p : option Z) : SyncJobState := {|
  organisationId := organisationId data;
  region := region data;
  isFirstSync := isFirstSync data;
  syncStartedAt := syncStartedAt data;
  page := p;
|}.

(** step [get-token] *)
Definition get_token (db : Database) (orgId : string) : Run effect string :=
  match db !! orgId with
  | None => throw (NonRetriableError
                     (String.append "Could not retrieve organisation with id=" orgId) None)
  | Some token => ret token
  end.

(** the call [await getUsers(token, page)] *)
Definition call_getUsers (getUsers : UsersApi) (token : string) (p : option Z)
  : Run effect UsersPage :=
  ([GetUsers token p], getUsers token p).

(** step [list-users] *)
Definition list_users (getUsers : UsersApi) (elba : ElbaConfig) (token : string)
    (p : option Z) : Run effect (option Z) :=
  result <-- call_getUsers getUsers token p ;;
  (if 0 <? Z.of_nat (length (users result))
   then emit (UsersUpdate elba (map formatElbaUser (users result)))
   else ret tt) ;;;
  ret (nextPage result).

(** step [finalize] *)
Definition finalize (elba : ElbaConfig) (started : option Z) : Run effect unit :=
  match toISOString started with
  | inl e => throw e
  | inr iso => emit (UsersDelete elba iso)
  end.

Definition syncUsers (db : Database) (getUsers : UsersApi) (data : SyncJobState)
  : Run effect status :=
  let started := new_Date (syncStartedAt data) in
  let elba := {| elba_organisationId := organisationId data;
                 elba_region := region data |} in
  token <-- get_token db (organisationId data) ;;
  next <-- list_users getUsers elba token (page data) ;;
  if truthy next then
    emit (SendEvent event_name (with_page data next)) ;;;
    ret Ongoing
  else
    finalize elba started ;;;
    ret Completed.

(** ** The event runtime

    Each page is one invocation; the event an invocation sends is
    delivered to the next invocation of the same function. [fuel] bounds
    the number of deliveries. *)

Definition sent_event (ef : effect) : option SyncJobState :=
  match ef with
  | SendEvent n d => if String.eqb n event_name then Some d else None
  | _ => None
  end.

Definition pending_event (tr : list effect) : option SyncJobState :=
  last (omap sent_event tr).

Fixpoint dispatch (fuel : nat) (db : Database) (getUsers : UsersApi)
    (data : SyncJobState) : list (SyncJobState * Run effect status) :=
  match fuel with
  | O => []
  | S f =>
      let run := syncUsers db getUsers data in
      (data, run) ::
        match pending_event run.1 with
        | Some next => dispatch f db getUsers next
        | None => []
        end
  end.

(** Classifiers of the calls. *)
Definition is_update (ef : effect) : bool :=
  match ef with UsersUpdate _ _ => true | _ => false end.
Definition is_delete (ef : effect) : bool :=
  match ef with UsersDelete _ _ => true | _ => false end.
Definition is_send (ef : effect) : bool :=
  match ef with SendEvent _ _ => true | _ => false end.
Definition is_fetch (ef : effect) : bool :=
  match ef with GetUsers _ _ => true | _ => false end.

(** The batches sent to [elba.users.update], in order. *)
Definition update_batches (tr : list effect) : list (list User) :=
  omap (fun ef => match ef with UsersUpdate _ us => Some us | _ => None end) tr.

End Monday.

(** * The dropbox cron scheduler [scheduleUserSync] *)

Module Dropbox.

(** A JSON value of an event payload. *)
Inductive json :=
  | JString (s : string)
  | JNumber (n : Z)
  | JBool (b : bool)
  | JNull.

(** An object literal: its own properties, in order. *)
Abbreviation object := (list (string * json)).

(** Property read [o[k]]: [None] is [undefined] (no such property). *)
Definition get (o : object) (k : string) : option json :=
  match find (fun kv => String.eqb kv.1 k) o with
  | Some kv => Some kv.2
  | None => None
  end.

(** A row of [getOrganisationsToSync()]; the scheduler reads its
    [organisationId] only. *)
Record OrganisationToSync := { organisationId : string }.

Record Event := { name : string; data : object }.

(** [step.sendEvent(id, events)] *)
Inductive effect := SendEvents (step_id : string) (events : list Event).

(** The returned report [{ organisations }]. *)
Record Report := { organisations : list OrganisationToSync }.

Definition sync_event (syncStartedAt : Z) (o : OrganisationToSync) : Event := {|
  name := "dropbox/users.sync_page.triggered";
  data := [("organisationId", JString (organisationId o));
           ("isFirstSync", JBool false);
           ("syncStartedAt", JNumber syncStartedAt)];
|}.

(** One run, given the rows [getOrganisationsToSync()] resolved to and
    the value of [Date.now()]. *)
Definition scheduleUserSync (orgs : list OrganisationToSync) (now : Z)
  : list effect * Report :=
  let syncStartedAt := now in
  ((if 0 <? Z.of_nat (length orgs)
    then [SendEvents "run-user-sync-jobs" (map (sync_event syncStartedAt) orgs)]
    else []),
   {| organisations := orgs |}).

End Dropbox.

(** * The github [unauthorizedMiddleware] *)

Module Github.

(** The [organisation] table (see the migration snapshot). *)
Record Organisation := {
  id : string;
  region : string;
  installationId : Z;
  accountLogin : string;
}.

Abbreviation Database := (gmap string Organisation).

Record ElbaConfig := { elba_organisationId : string; elba_region : string }.

Inductive effect :=
  | NewElba (elba : ElbaConfig)
  | ConnectionStatusUpdate (elba : ElbaConfig) (hasError : bool)
  | DeleteOrganisation (organisationId : string).

Section Middleware.
Context {Rest Data : Type}.

(** [ctx.result] of [transformOutput(ctx)] *)
Record FunctionResult := { data : Data; error : option Error }.

(** the context passed to [transformOutput]: [result] and the other fields *)
Record OutputContext := { rest : Rest; result : FunctionResult }.

(** Modelled from the spec: the source of [unauthorizedMiddleware] is not
    in the repository sources, only its test. An error is an authorization
    rejection when it is a [RequestError] whose response status is 401.
    On such an error the middleware builds the elba client of the event's
    organisation, updates its connection status with [hasError: true],
    deletes the organisation row, and returns the context with the error
    replaced by a [NonRetriableError] whose cause is the original error.
    Otherwise it returns [undefined] ([None]): the output is not
    transformed. *)
Definition is_unauthorized (e : Error) : bool :=
  match e with
  | RequestError _ (Some 401) => true
  | _ => false
  end.

Definition transformOutput (organisationId region : string) (db : Database)
    (ctx : OutputContext) : list effect * Database * option OutputContext :=
  match error (result ctx) with
  | Some e =>
      if is_unauthorized e then
        let elba := {| elba_organisationId := organisationId;
                       elba_region := region |} in
        ([NewElba elba; ConnectionStatusUpdate elba true;
          DeleteOrganisation organisationId],
         delete organisationId db,
         Some {| rest := rest ctx;
                 result := {| data := data (result ctx);
                              error := Some (NonRetriableError
                                (String.append
                                   "Github returned an unauthorized status code for organisation "
                                   organisationId)
                                (Some e)) |} |})
      else ([], db, None)
  | None => ([], db, None)
  end.

End Middleware.

Arguments FunctionResult : clear implicits.
Arguments OutputContext : clear implicits.

Definition is_status_update (ef : effect) : bool :=
  match ef with ConnectionStatusUpdate _ _ => true | _ => false end.

Definition is_organisation_delete (ef : effect) : bool :=
  match ef with DeleteOrganisation _ => true | _ => false end.

End Github.

(** * Properties of the page-sync worker *)

Module MondayFacts.
Import Monday.

(** The elba client of an invocation. *)
Definition elba_of (data : SyncJobState) : ElbaConfig :=
  {| elba_organisationId := organisationId data; elba_region := region data |}.

(** The calls of [list-users] on a fetched page. *)
Definition page_calls (elba : ElbaConfig) (token : string) (p : option Z)
    (pg : UsersPage) : list effect :=
  GetUsers token p ::
    (if 0 <? Z.of_nat (length (users pg))
     then [UsersUpdate elba (map formatElbaUser (users pg))] else []).

(** A page is non-empty. *)
Definition nonempty (pg : UsersPage) : bool := 0 <? Z.of_nat (length (users pg)).

(** The remote serves [pages] from cursor [p] on: each intermediate page
    points to the next by a truthy cursor and the last one by a falsy one. *)
Fixpoint serves (getUsers : UsersApi) (token : string) (p : option Z)
    (pages : list UsersPage) : Prop :=
  match pages with
  | [] => False
  | pg :: rest =>
      getUsers token p = inr pg /\
      match rest with
      | [] => truthy (nextPage pg) = false
      | _ :: _ => truthy (nextPage pg) = true /\ serves getUsers token (nextPage pg) rest
      end
  end.

Definition statuses (runs : list (SyncJobState * Run effect status)) : list (Error + status) :=
  map (fun r => r.2.2) runs.

Definition all_calls (runs : list (SyncJobState * Run effect status)) : list effect :=
  concat (map (fun r => r.2.1) runs).

(** ** Unfolding one invocation *)

Lemma syncUsers_no_org db getUsers data :
  db !! organisationId data = None ->
  syncUsers db getUsers data =
    ([], inl (NonRetriableError
                (String.append "Could not retrieve organisation with id="
                   (organisationId data)) None)).
Proof. intros H. unfold syncUsers, get_token. rewrite H. reflexivity. Qed.

Lemma syncUsers_fetch_error db getUsers data token e :
  db !! organisationId data = Some token ->
  getUsers token (page data) = inl e ->
  syncUsers db getUsers data = ([GetUsers token (page data)], inl e).
Proof.
  intros Hdb Hget. unfold syncUsers, get_token. rewrite Hdb. cbn [bindR ret].
  unfold list_users, call_getUsers. rewrite Hget. reflexivity.
Qed.

Lemma syncUsers_fetched db getUsers data token pg :
  db !! organisationId data = Some token ->
  getUsers token (page data) = inr pg ->
  syncUsers db getUsers data =
    let tr0 := page_calls (elba_of data) token (page data) pg in
    if truthy (nextPage pg) then
      (tr0 ++ [SendEvent event_name (with_page data (nextPage pg))], inr Ongoing)
    else
      match toISOString (new_Date (syncStartedAt data)) with
      | inl e => (tr0, inl e)
      | inr iso => (tr0 ++ [UsersDelete (elba_of data) iso], inr Completed)
      end.
Proof.
  intros Hdb Hget. unfold syncUsers, get_token. rewrite Hdb. cbn [bindR ret].
  unfold list_users, call_getUsers, page_calls. rewrite Hget. cbn [bindR ret emit app].
  destruct (0 <? Z.of_nat (length (users pg))); cbn [bindR ret emit app];
    destruct (truthy (nextPage pg)); unfold finalize;
    try destruct (toISOString _); cbn [bindR ret emit throw app];
    rewrite ?app_nil_r; reflexivity.
Qed.

(** ** A two-page organisation *)

Definition ex_db : Database := <["org" := "tok"]> ∅.

Definition ex_user (n : string) : MondayUser :=
  {| mu_id := n; mu_name := n; mu_email := String.append n "@x.io" |}.

Definition ex_api (token : string) (p : option Z) : Error + UsersPage :=
  match p with
  | None => inr {| users := [ex_user "a"; ex_user "b"]; nextPage := Some 2 |}
  | Some 2 => inr {| users := []; nextPage := None |}
  | Some _ => inl (MondayError "not found" (Some 404))
  end.

Definition ex_data : SyncJobState := {|
  organisationId := "org"; region := "eu"; isFirstSync := false;
  syncStartedAt := 1700000000000; page := None |}.

Example ex_dispatch :
  statuses (dispatch 5 ex_db ex_api ex_data) = [inr Ongoing; inr Completed].
Proof. reflexivity. Qed.

Example ex_calls :
  filter is_delete (all_calls (dispatch 5 ex_db ex_api ex_data))
  = [UsersDelete (elba_of ex_data) 1700000000000].
Proof. reflexivity. Qed.

(** ** The whole chain of invocations of one logical sync *)

(** The calls of a sync over [pages], in order. *)
Fixpoint expected_calls (data : SyncJobState) (token : string)
    (pages : list UsersPage) : list effect :=
  match pages with
  | [] => []
  | pg :: rest =>
      page_calls (elba_of data) token (page data) pg ++
      match rest with
      | [] => [UsersDelete (elba_of data) (syncStartedAt data)]
      | _ :: _ =>
          SendEvent event_name (with_page data (nextPage pg)) ::
            expected_calls (with_page data (nextPage pg)) token rest
      end
  end.

Lemma omap_sent_page_calls elba token p pg :
  omap sent_event (page_calls elba token p pg) = [].
Proof. unfold page_calls. destruct (0 <? _); reflexivity. Qed.

Lemma filter_delete_page_calls elba token p pg :
  filter is_delete (page_calls elba token p pg) = [].
Proof. unfold page_calls. destruct (0 <? _); reflexivity. Qed.

Lemma toISOString_valid t :
  Z.abs t <= maxTimeValue -> toISOString (new_Date t) = inr t.
Proof.
  intros H. unfold new_Date. apply Z.leb_le in H. rewrite H. reflexivity.
Qed.

Lemma dispatch_serves (db : Database) (getUsers : UsersApi) (token : string) :
  forall (pages : list UsersPage) (data : SyncJobState) (fuel : nat),
  db !! organisationId data = Some token ->
  serves getUsers token (page data) pages ->
  Z.abs (syncStartedAt data) <= maxTimeValue ->
  (length pages <= fuel)%nat ->
  let runs := dispatch fuel db getUsers data in
  length runs = length pages /\
  statuses runs = repeat (inr Ongoing) (pred (length pages)) ++ [inr Completed] /\
  all_calls runs = expected_calls data token pages /\
  Forall (fun r => pending_event r.2.1 <> None -> filter is_delete r.2.1 = []) runs /\
  Forall (fun r => r.1 = with_page data (page r.1)) runs.
Proof.
  induction pages as [|pg rest IH]; intros data fuel Hdb Hserve Hvalid Hfuel;
    [contradiction|].
  destruct fuel as [|f]; [simpl in Hfuel; lia|].
  destruct Hserve as [Hget Hrest].
  cbn [dispatch]. rewrite (syncUsers_fetched _ _ _ _ _ Hdb Hget).
  destruct rest as [|pg' rest'].
  - rewrite Hrest, (toISOString_valid _ Hvalid). cbn zeta.
    assert (Hpend : pending_event
              (page_calls (elba_of data) token (page data) pg ++
               [UsersDelete (elba_of data) (syncStartedAt data)]) = None).
    { unfold pending_event. rewrite omap_app, omap_sent_page_calls. reflexivity. }
    cbn [fst]. rewrite Hpend.
    split; [done|]. split; [done|].
    split; [unfold all_calls; cbn; rewrite !app_nil_r; reflexivity|].
    split; constructor; auto.
    + intros Hne. contradiction.
    + destruct data; reflexivity.
  - destruct Hrest as [Htrue Hserve'].
    rewrite Htrue. cbn zeta.
    assert (Hpend : pending_event
              (page_calls (elba_of data) token (page data) pg ++
               [SendEvent event_name (with_page data (nextPage pg))])
            = Some (with_page data (nextPage pg))).
    { unfold pending_event. rewrite omap_app, omap_sent_page_calls. reflexivity. }
    cbn [fst]. rewrite Hpend.
    destruct (IH (with_page data (nextPage pg)) f) as (Hlen & Hst & Hcalls & Hdel & Hpay);
      [exact Hdb | exact Hserve' | exact Hvalid | simpl in Hfuel |- *; lia |].
    cbn zeta in *.
    split; [cbn; rewrite Hlen; reflexivity|].
    split; [cbn [statuses map]; unfold statuses in Hst; rewrite Hst; reflexivity|].
    split.
    { unfold all_calls in *. cbn [map concat]. rewrite Hcalls.
      cbn [expected_calls fst snd]. rewrite <- app_assoc. reflexivity. }
    split.
    + constructor; [|exact Hdel].
      intros _. cbn [fst snd]. rewrite filter_app, filter_delete_page_calls. reflexivity.
    + constructor; [destruct data; reflexivity|].
      eapply Forall_impl; [exact Hpay|]. intros r Hr. rewrite Hr.
      destruct data; reflexivity.
Qed.
(** ** Derived facts on the calls of a chain *)

Lemma elba_of_with_page data p : elba_of (with_page data p) = elba_of data.
Proof. reflexivity. Qed.

Lemma update_batches_page_calls elba token p pg :
  update_batches (page_calls elba token p pg)
  = if nonempty pg then [map formatElbaUser (users pg)] else [].
Proof. unfold page_calls, nonempty. destruct (0 <? _); reflexivity. Qed.

Lemma last_page_calls elba token p pg x l :
  last (page_calls elba token p pg ++ x :: l) = last (x :: l).
Proof. apply last_app_cons. Qed.

Lemma update_batches_app l1 l2 :
  update_batches (l1 ++ l2) = update_batches l1 ++ update_batches l2.
Proof. unfold update_batches. apply omap_app. Qed.

Lemma update_batches_send n d l :
  update_batches (SendEvent n d :: l) = update_batches l.
Proof. reflexivity. Qed.

Lemma expected_calls_facts token :
  forall (pages : list UsersPage) (data : SyncJobState), pages <> [] ->
  let calls := expected_calls data token pages in
  update_batches calls
    = map (fun pg => map formatElbaUser (users pg)) (List.filter nonempty pages) /\
  filter is_delete calls = [UsersDelete (elba_of data) (syncStartedAt data)] /\
  last calls = Some (UsersDelete (elba_of data) (syncStartedAt data)).
Proof.
  induction pages as [|pg rest IH]; intros data Hne; [congruence|].
  cbn zeta. cbn [expected_calls].
  rewrite update_batches_app, filter_app, filter_delete_page_calls,
    update_batches_page_calls.
  destruct rest as [|pg' rest'].
  - rewrite last_snoc. split; [|split; reflexivity].
    cbn [List.filter]. destruct (nonempty pg); reflexivity.
  - destruct (IH (with_page data (nextPage pg))) as (Hb & Hd & Hl); [congruence|].
    cbn zeta in Hb, Hd, Hl. rewrite elba_of_with_page in Hd, Hl.
    rewrite update_batches_send, Hb.
    split; [cbn [List.filter]; destruct (nonempty pg); reflexivity|].
    split.
    + rewrite filter_cons_False by (cbn; tauto). exact Hd.
    + rewrite last_page_calls, last_cons, Hl. reflexivity.
Qed.

(** The payloads of a chain are the first one with another cursor. *)
Lemma pending_syncUsers db getUsers data next :
  pending_event (syncUsers db getUsers data).1 = Some next ->
  next = with_page data (page next).
Proof.
  destruct (db !! organisationId data) as [token|] eqn:Hdb.
  - destruct (getUsers token (page data)) as [e|pg] eqn:Hget.
    + rewrite (syncUsers_fetch_error _ _ _ _ _ Hdb Hget). discriminate.
    + rewrite (syncUsers_fetched _ _ _ _ _ Hdb Hget). cbn zeta.
      unfold pending_event.
      destruct (truthy (nextPage pg)).
      * cbn [fst]. rewrite omap_app, omap_sent_page_calls.
        intros H. injection H as <-. reflexivity.
      * destruct (toISOString _); cbn [fst];
          rewrite ?omap_app, omap_sent_page_calls; discriminate.
  - rewrite (syncUsers_no_org _ _ _ Hdb). discriminate.
Qed.

Lemma dispatch_payloads (db : Database) (getUsers : UsersApi) :
  forall (fuel : nat) (data : SyncJobState),
  Forall (fun r => r.1 = with_page data (page r.1)) (dispatch fuel db getUsers data).
Proof.
  induction fuel as [|f IH]; intros data; cbn [dispatch]; [constructor|].
  constructor; [destruct data; reflexivity|].
  destruct (pending_event _) as [next|] eqn:Hp; [|constructor].
  apply pending_syncUsers in Hp.
  eapply Forall_impl; [apply IH|]. intros r Hr. rewrite Hr, Hp. reflexivity.
Qed.

Lemma update_batches_fetched db getUsers data token pg :
  db !! organisationId data = Some token ->
  getUsers token (page data) = inr pg ->
  update_batches (syncUsers db getUsers data).1
  = if nonempty pg then [map formatElbaUser (users pg)] else [].
Proof.
  intros Hdb Hget. rewrite (syncUsers_fetched _ _ _ _ _ Hdb Hget). cbn zeta.
  destruct (truthy (nextPage pg)); [|destruct (toISOString _)]; cbn [fst];
    rewrite ?update_batches_app, update_batches_page_calls; cbn;
    rewrite ?app_nil_r; reflexivity.
Qed.
(** ** Concrete remotes for the boundary cases *)

(** A remote whose first page points to page [0]. *)
Definition ex_api_zero (token : string) (p : option Z) : Error + UsersPage :=
  match p with
  | None => inr {| users := [ex_user "a"]; nextPage := Some 0 |}
  | Some 0 => inr {| users := [ex_user "b"]; nextPage := None |}
  | Some _ => inl (MondayError "not found" (Some 404))
  end.

(** A remote with a single empty page. *)
Definition ex_api_single (token : string) (p : option Z) : Error + UsersPage :=
  inr {| users := []; nextPage := None |}.

Definition ex_data_late : SyncJobState := {|
  organisationId := "org"; region := "eu"; isFirstSync := false;
  syncStartedAt := 9000000000000000; page := None |}.

(** ** C1 *)

(** Claim C1, as stated, fails: the remote below spans two non-empty
    pages, the first one pointing to the second by the cursor [0]; the
    sync stops after one invocation, which upserts one batch and deletes
    although its fetch returned a next-page cursor. And when
    [syncStartedAt] is not a valid date the last page ends in a
    [RangeError] with no delete call. *)
Lemma sync_chain_falsy_cursor_cex :
  ex_api_zero "tok" None = inr {| users := [ex_user "a"]; nextPage := Some 0 |} /\
  ex_api_zero "tok" (Some 0) = inr {| users := [ex_user "b"]; nextPage := None |} /\
  length (dispatch 5 ex_db ex_api_zero ex_data) = 1%nat /\
  length (update_batches (all_calls (dispatch 5 ex_db ex_api_zero ex_data))) = 1%nat /\
  filter is_delete (syncUsers ex_db ex_api_zero ex_data).1
    = [UsersDelete (elba_of ex_data) (syncStartedAt ex_data)] /\
  syncUsers ex_db ex_api_single ex_data_late
    = ([GetUsers "tok" None], inl (RangeError "Invalid time value")).
Proof. repeat split; reflexivity. Qed.

(** Claim C1 (amended). For an organisation whose remote serves N >= 1
    pages from the payload's cursor on, each intermediate page pointing
    to the next by a truthy cursor (non-null, non-zero) and the last page
    by a falsy one, and whose [syncStartedAt] is a valid date, the chain of
    invocations (delivered with any budget of at least N deliveries) has N
    invocations; it upserts exactly one batch per non-empty page, in page
    order; it performs exactly one delete, as its very last call, with
    [syncedBefore] equal to [syncStartedAt]; its last invocation reports
    "completed"; and no invocation that sends a continuation event
    performs a delete. *)
Theorem sync_chain_upserts_then_deletes (db : Database) (getUsers : UsersApi)
    (data : SyncJobState) (token : string) (pages : list UsersPage) (fuel : nat) :
  db !! organisationId data = Some token ->
  serves getUsers token (page data) pages ->
  Z.abs (syncStartedAt data) <= maxTimeValue ->
  (length pages <= fuel)%nat ->
  let runs := dispatch fuel db getUsers data in
  let calls := all_calls runs in
  length runs = length pages /\
  update_batches calls
    = map (fun pg => map formatElbaUser (users pg)) (List.filter nonempty pages) /\
  filter is_delete calls = [UsersDelete (elba_of data) (syncStartedAt data)] /\
  last calls = Some (UsersDelete (elba_of data) (syncStartedAt data)) /\
  last (statuses runs) = Some (inr Completed) /\
  Forall (fun r => pending_event r.2.1 <> None -> filter is_delete r.2.1 = []) runs.
Proof.
  intros Hdb Hserve Hvalid Hfuel.
  destruct (dispatch_serves db getUsers token pages data fuel Hdb Hserve Hvalid Hfuel)
    as (Hlen & Hst & Hcalls & Hdel & _).
  assert (Hne : pages <> []) by (destruct pages; [contradiction|discriminate]).
  destruct (expected_calls_facts token pages data Hne) as (Hb & Hd & Hl).
  cbn zeta in *. rewrite Hcalls.
  split; [exact Hlen|]. split; [exact Hb|]. split; [exact Hd|]. split; [exact Hl|].
  split; [rewrite Hst; apply last_snoc|exact Hdel].
Qed.

Lemma sync_chain_upserts_then_deletes_witness :
  serves ex_api "tok" None
    [{| users := [ex_user "a"; ex_user "b"]; nextPage := Some 2 |};
     {| users := []; nextPage := None |}] /\
  length (dispatch 2 ex_db ex_api ex_data) = 2%nat.
Proof.
  assert (Hs : serves ex_api "tok" None
    [{| users := [ex_user "a"; ex_user "b"]; nextPage := Some 2 |};
     {| users := []; nextPage := None |}]) by (repeat split).
  split; [exact Hs|].
  apply (sync_chain_upserts_then_deletes ex_db ex_api ex_data "tok" _ 2
           eq_refl Hs); [vm_compute; discriminate | reflexivity].
Defined.
(** ** C2 *)

(** Claim C2, as stated, fails: the fetch returns the next-page cursor
    [0], yet the invocation emits no event and reports "completed". *)
Lemma continuation_zero_cursor_cex :
  ex_api_zero "tok" (page ex_data) = inr {| users := [ex_user "a"]; nextPage := Some 0 |} /\
  filter is_send (syncUsers ex_db ex_api_zero ex_data).1 = [] /\
  (syncUsers ex_db ex_api_zero ex_data).2 = inr Completed.
Proof. repeat split; reflexivity. Qed.

(** Claim C2 (amended). When the fetch of an invocation returns a truthy
    next-page cursor (non-null, non-zero), the invocation sends exactly one
    event, whose payload has that cursor as [page] and the incoming
    [organisationId], [region], [isFirstSync] and [syncStartedAt]; it is the
    event delivered next; the invocation performs no delete and reports
    "ongoing". Along every chain of deliveries, every payload keeps the
    [organisationId], [region], [isFirstSync] and [syncStartedAt] of the
    first one. *)
Theorem continuation_event_keeps_payload (db : Database) (getUsers : UsersApi)
    (data : SyncJobState) (token : string) (pg : UsersPage) :
  db !! organisationId data = Some token ->
  getUsers token (page data) = inr pg ->
  truthy (nextPage pg) = true ->
  let run := syncUsers db getUsers data in
  run.2 = inr Ongoing /\
  (exists next,
     filter is_send run.1 = [SendEvent event_name next] /\
     pending_event run.1 = Some next /\
     page next = nextPage pg /\
     organisationId next = organisationId data /\
     region next = region data /\
     isFirstSync next = isFirstSync data /\
     syncStartedAt next = syncStartedAt data) /\
  filter is_delete run.1 = [] /\
  (forall fuel : nat,
     Forall (fun r => organisationId r.1 = organisationId data /\
                      region r.1 = region data /\
                      isFirstSync r.1 = isFirstSync data /\
                      syncStartedAt r.1 = syncStartedAt data)
       (dispatch fuel db getUsers data)).
Proof.
  intros Hdb Hget Htrue. cbn zeta.
  rewrite (syncUsers_fetched _ _ _ _ _ Hdb Hget). cbn zeta. rewrite Htrue.
  cbn [fst snd]. split; [reflexivity|].
  split.
  { exists (with_page data (nextPage pg)).
    rewrite filter_app. unfold page_calls.
    unfold pending_event. rewrite omap_app.
    destruct (0 <? _); cbn; repeat split; reflexivity. }
  split.
  { rewrite filter_app, filter_delete_page_calls. reflexivity. }
  intros fuel. eapply Forall_impl; [apply dispatch_payloads|].
  intros r ->. repeat split.
Qed.

Lemma continuation_event_keeps_payload_witness :
  truthy (nextPage {| users := [ex_user "a"; ex_user "b"]; nextPage := Some 2 |}) = true /\
  (syncUsers ex_db ex_api ex_data).2 = inr Ongoing.
Proof.
  split; [reflexivity|].
  apply (continuation_event_keeps_payload ex_db ex_api ex_data "tok"
           {| users := [ex_user "a"; ex_user "b"]; nextPage := Some 2 |});
    reflexivity.
Defined.

(** ** C6 *)

(** Claim C6. When the organisation of the payload has no row, the
    invocation throws the non-retriable "Could not retrieve organisation"
    error and performs no call at all: no fetch, no upsert, no delete, no
    event. *)
Theorem missing_organisation_fails_first (db : Database) (getUsers : UsersApi)
    (data : SyncJobState) :
  db !! organisationId data = None ->
  syncUsers db getUsers data =
    ([], inl (NonRetriableError
                (String.append "Could not retrieve organisation with id="
                   (organisationId data)) None)).
Proof. apply syncUsers_no_org. Qed.

Lemma missing_organisation_fails_first_witness :
  (∅ : Database) !! organisationId ex_data = None /\
  (syncUsers ∅ ex_api ex_data).1 = [].
Proof.
  split; [reflexivity|].
  rewrite (missing_organisation_fails_first ∅ ex_api ex_data); reflexivity.
Defined.
(** ** C7 *)

(** Claim C7. On a fetched page, the invocation upserts the formatted
    batch exactly when the page has users, and nothing otherwise; and any
    other page with the same next-page value leads to the same outcome and
    to the same calls apart from the upserts. *)
Theorem upsert_iff_nonempty (db : Database) (getUsers : UsersApi)
    (data : SyncJobState) (token : string) (pg : UsersPage) :
  db !! organisationId data = Some token ->
  getUsers token (page data) = inr pg ->
  let run := syncUsers db getUsers data in
  update_batches run.1
    = (if nonempty pg then [map formatElbaUser (users pg)] else []) /\
  (forall (getUsers' : UsersApi) (pg' : UsersPage),
     getUsers' token (page data) = inr pg' ->
     nextPage pg' = nextPage pg ->
     let run' := syncUsers db getUsers' data in
     run'.2 = run.2 /\
     filter (fun ef => negb (is_update ef)) run'.1
       = filter (fun ef => negb (is_update ef)) run.1).
Proof.
  intros Hdb Hget. cbn zeta.
  split; [apply (update_batches_fetched _ _ _ _ _ Hdb Hget)|].
  intros getUsers' pg' Hget' Hnext.
  rewrite (syncUsers_fetched _ _ _ _ _ Hdb Hget), (syncUsers_fetched _ _ _ _ _ Hdb Hget').
  cbn zeta. rewrite Hnext.
  assert (Hpc : forall q, filter (fun ef => negb (is_update ef))
                  (page_calls (elba_of data) token (page data) q)
                = [GetUsers token (page data)]).
  { intros q. unfold page_calls. destruct (0 <? _); reflexivity. }
  destruct (truthy (nextPage pg)); [|destruct (toISOString _)]; cbn [fst snd];
    rewrite ?filter_app, !Hpc; split; reflexivity.
Qed.

Lemma upsert_iff_nonempty_witness :
  ex_api "tok" (Some 2) = inr {| users := []; nextPage := None |} /\
  update_batches (syncUsers ex_db ex_api (with_page ex_data (Some 2))).1 = [].
Proof.
  split; [reflexivity|].
  apply (upsert_iff_nonempty ex_db ex_api (with_page ex_data (Some 2)) "tok"
           {| users := []; nextPage := None |}); reflexivity.
Defined.

(** ** C8 *)

(** Claim C8. Two deliveries of payloads with the same [organisationId],
    [page] and [syncStartedAt], against the same organisation rows and the
    same remote, upsert the same batches and end alike. *)
Theorem page_step_deterministic (db : Database) (getUsers : UsersApi)
    (data1 data2 : SyncJobState) :
  organisationId data1 = organisationId data2 ->
  page data1 = page data2 ->
  syncStartedAt data1 = syncStartedAt data2 ->
  update_batches (syncUsers db getUsers data1).1
    = update_batches (syncUsers db getUsers data2).1 /\
  (syncUsers db getUsers data1).2 = (syncUsers db getUsers data2).2.
Proof.
  intros Horg Hpage Hstart.
  destruct (db !! organisationId data1) as [token|] eqn:Hdb1.
  - assert (Hdb2 : db !! organisationId data2 = Some token) by congruence.
    destruct (getUsers token (page data1)) as [e|pg] eqn:Hget1.
    + assert (Hget2 : getUsers token (page data2) = inl e) by congruence.
      rewrite (syncUsers_fetch_error _ _ _ _ _ Hdb1 Hget1),
        (syncUsers_fetch_error _ _ _ _ _ Hdb2 Hget2).
      split; reflexivity.
    + assert (Hget2 : getUsers token (page data2) = inr pg) by congruence.
      rewrite (update_batches_fetched _ _ _ _ _ Hdb1 Hget1),
        (update_batches_fetched _ _ _ _ _ Hdb2 Hget2).
      split; [reflexivity|].
      rewrite (syncUsers_fetched _ _ _ _ _ Hdb1 Hget1),
        (syncUsers_fetched _ _ _ _ _ Hdb2 Hget2).
      cbn zeta. rewrite Hstart.
      destruct (truthy (nextPage pg)); [|destruct (toISOString _)]; reflexivity.
  - assert (Hdb2 : db !! organisationId data2 = None) by congruence.
    rewrite (syncUsers_no_org _ _ _ Hdb1), (syncUsers_no_org _ _ _ Hdb2), Horg.
    split; reflexivity.
Qed.

Lemma page_step_deterministic_witness :
  update_batches (syncUsers ex_db ex_api ex_data).1
    = update_batches (syncUsers ex_db ex_api ex_data).1 /\
  update_batches (syncUsers ex_db ex_api ex_data).1
    = [map formatElbaUser [ex_user "a"; ex_user "b"]].
Proof.
  split; [|reflexivity].
  apply (page_step_deterministic ex_db ex_api ex_data ex_data); reflexivity.
Defined.

(** ** C10 *)

(** Claim C10, as stated, fails: with the next-page value [0] and a
    [syncStartedAt] outside the range of dates, the invocation sends no
    event but throws a [RangeError] in finalize: no delete, no
    "completed". *)
Lemma zero_cursor_invalid_date_cex :
  ex_api_zero "tok" (page ex_data_late)
    = inr {| users := [ex_user "a"]; nextPage := Some 0 |} /\
  syncUsers ex_db ex_api_zero ex_data_late
    = ([GetUsers "tok" None;
        UsersUpdate (elba_of ex_data_late) [formatElbaUser (ex_user "a")]],
       inl (RangeError "Invalid time value")).
Proof. split; reflexivity. Qed.

(** Claim C10 (amended). When the fetch returns the next-page value [0]
    (falsy) and [syncStartedAt] is a valid date, the invocation sends no
    event: it performs the finalize delete with
    [syncedBefore = syncStartedAt] and reports "completed". *)
Theorem zero_cursor_finalizes (db : Database) (getUsers : UsersApi)
    (data : SyncJobState) (token : string) (pg : UsersPage) :
  db !! organisationId data = Some token ->
  getUsers token (page data) = inr pg ->
  nextPage pg = Some 0 ->
  Z.abs (syncStartedAt data) <= maxTimeValue ->
  syncUsers db getUsers data =
    (page_calls (elba_of data) token (page data) pg ++
       [UsersDelete (elba_of data) (syncStartedAt data)], inr Completed) /\
  pending_event (syncUsers db getUsers data).1 = None.
Proof.
  intros Hdb Hget Hzero Hvalid.
  rewrite (syncUsers_fetched _ _ _ _ _ Hdb Hget). cbn zeta.
  rewrite Hzero, (toISOString_valid _ Hvalid). cbn [truthy negb Z.eqb].
  split; [reflexivity|].
  unfold pending_event. cbn [fst]. rewrite omap_app, omap_sent_page_calls. reflexivity.
Qed.

Lemma zero_cursor_finalizes_witness :
  ex_api_zero "tok" None = inr {| users := [ex_user "a"]; nextPage := Some 0 |} /\
  pending_event (syncUsers ex_db ex_api_zero ex_data).1 = None.
Proof.
  split; [reflexivity|].
  apply (zero_cursor_finalizes ex_db ex_api_zero ex_data "tok"
           {| users := [ex_user "a"]; nextPage := Some 0 |});
    [reflexivity | reflexivity | reflexivity | vm_compute; discriminate].
Defined.
End MondayFacts.

(** * Properties of the scheduler *)

Module DropboxFacts.
Import Dropbox.

Definition ex_orgs : list OrganisationToSync :=
  [{| organisationId := "o1" |}; {| organisationId := "o2" |}].

Example ex_schedule :
  length (match (scheduleUserSync ex_orgs 42).1 with
          | [SendEvents _ evs] => evs | _ => [] end) = 2%nat.
Proof. reflexivity. Qed.

(** Claim C5, as stated, fails: the emitted payload has no [page]
    property, so [page] reads as [undefined], not [null]. *)
Lemma schedule_page_null_cex :
  exists evs,
    (scheduleUserSync [{| organisationId := "o1" |}] 42).1
      = [SendEvents "run-user-sync-jobs" evs] /\
    Forall (fun ev => get (data ev) "page" = None) evs /\
    evs <> [].
Proof.
  eexists. split; [reflexivity|]. split; [repeat constructor|discriminate].
Qed.

(** Claim C5 (amended). With no organisation to sync, a run emits
    nothing and reports the empty list. Otherwise it emits, in one batch,
    exactly one event per organisation, in order, whose payload carries the
    organisation's id, [isFirstSync = false] and the run's [Date.now()] as
    [syncStartedAt] (one value shared by the whole batch), and has no
    [page] property (it reads as [undefined]). *)
Theorem schedule_one_event_per_org (orgs : list OrganisationToSync) (now : Z) :
  let '(effects, report) := scheduleUserSync orgs now in
  organisations report = orgs /\
  (orgs = [] -> effects = []) /\
  (orgs <> [] ->
   exists evs,
     effects = [SendEvents "run-user-sync-jobs" evs] /\
     length evs = length orgs /\
     Forall2 (fun o ev =>
       name ev = "dropbox/users.sync_page.triggered" /\
       get (data ev) "organisationId" = Some (JString (organisationId o)) /\
       get (data ev) "isFirstSync" = Some (JBool false) /\
       get (data ev) "syncStartedAt" = Some (JNumber now) /\
       get (data ev) "page" = None) orgs evs).
Proof.
  unfold scheduleUserSync. split; [reflexivity|]. split.
  - intros ->. reflexivity.
  - intros Hne. destruct orgs as [|o os]; [congruence|].
    cbn [length]. replace (0 <? Z.of_nat (S (length os))) with true by (symmetry; apply Z.ltb_lt; lia).
    eexists. split; [reflexivity|]. split; [apply length_map|].
    apply Forall2_fmap_r. apply Forall_Forall2_diag. apply Forall_forall.
    intros x _. repeat split.
Qed.

End DropboxFacts.

(** * Properties of the unauthorized middleware *)

Module GithubFacts.
Import Github.

Definition ex_org : Organisation := {|
  id := "45a76301-f1dd-4a77-b12f-9d7d3fca3c90"; region := "us";
  installationId := 0; accountLogin := "some-login" |}.

Definition ex_db : Database := <[id ex_org := ex_org]> ∅.

Definition ex_unauthorized : Error := RequestError "foo bar" (Some 401).

(** The context of the test: [{ foo: 'bar', baz: { biz: true }, result }]. *)
Definition ex_ctx (e : option Error) : OutputContext (string * bool) string :=
  {| rest := ("bar", true); result := {| data := "bizz"; error := e |} |}.

Example ex_transform_unauthorized :
  (transformOutput (id ex_org) "us" ex_db (ex_ctx (Some ex_unauthorized))).1.2
    !! id ex_org = None.
Proof. reflexivity. Qed.

(** Claim C3. On an authorization rejection ([RequestError] with status
    401) the middleware updates the connection status of the event's
    organisation with [hasError: true] exactly once, deletes that
    organisation's row and no other, and returns the context with only the
    error changed: a [NonRetriableError] whose cause is the original
    error. *)
Theorem unauthorized_reclassified {Rest Data : Type} (organisationId region : string)
    (db : Database) (ctx : OutputContext Rest Data) (e : Error) :
  error (result ctx) = Some e ->
  is_unauthorized e = true ->
  let '(effects, db', out) := transformOutput organisationId region db ctx in
  let elba := {| elba_organisationId := organisationId; elba_region := region |} in
  filter is_status_update effects = [ConnectionStatusUpdate elba true] /\
  filter is_organisation_delete effects
    = [DeleteOrganisation organisationId] /\
  db' = delete organisationId db /\
  db' !! organisationId = None /\
  exists message,
    out = Some {| rest := rest ctx;
                  result := {| data := data (result ctx);
                               error := Some (NonRetriableError message (Some e)) |} |}.
Proof.
  intros Herr Hunauth. unfold transformOutput. rewrite Herr, Hunauth.
  split; [reflexivity|]. split; [reflexivity|]. split; [reflexivity|].
  split; [apply lookup_delete_eq|]. eexists. reflexivity.
Qed.

Lemma unauthorized_reclassified_witness :
  is_unauthorized ex_unauthorized = true /\
  (transformOutput (id ex_org) "us" ex_db (ex_ctx (Some ex_unauthorized))).1.2
    = delete (id ex_org) ex_db.
Proof.
  split; [reflexivity|].
  pose proof (unauthorized_reclassified (id ex_org) "us" ex_db
                (ex_ctx (Some ex_unauthorized)) ex_unauthorized eq_refl eq_refl) as H.
  destruct (transformOutput _ _ _ _) as [[effs db'] out].
  destruct H as (_ & _ & Hdb & _). exact Hdb.
Defined.

(** Claim C4. With no error, or an error that is not an authorization
    rejection, the middleware performs no call, leaves the organisation
    rows unchanged and returns [undefined]: the output is not
    transformed. *)
Theorem non_unauthorized_passes_through {Rest Data : Type}
    (organisationId region : string) (db : Database) (ctx : OutputContext Rest Data) :
  (error (result ctx) = None \/
   exists e, error (result ctx) = Some e /\ is_unauthorized e = false) ->
  transformOutput organisationId region db ctx = ([], db, None).
Proof.
  intros [Hnone | (e & Herr & Hnot)]; unfold transformOutput.
  - rewrite Hnone. reflexivity.
  - rewrite Herr, Hnot. reflexivity.
Qed.

Lemma non_unauthorized_passes_through_witness :
  transformOutput (id ex_org) "us" ex_db (ex_ctx (Some (GenericError "foo bar")))
    = ([], ex_db, None) /\
  transformOutput (id ex_org) "us" ex_db (ex_ctx (Some (RequestError "timeout" (Some 500))))
    = ([], ex_db, None).
Proof.
  split; apply non_unauthorized_passes_through; right.
  - exists (GenericError "foo bar"). split; reflexivity.
  - exists (RequestError "timeout" (Some 500)). split; reflexivity.
Defined.

End GithubFacts.

(** * Further properties of the page-sync worker *)

Module MondayExtra.
Import Monday MondayFacts.

(** The [createFunction] options of [syncUsers] that depend on the payload:
    [priority.run = 'event.data.isFirstSync ? 600 : 0'] and
    [concurrency.key = 'event.data.organisationId']. *)
Definition priority (data : SyncJobState) : Z := if isFirstSync data then 600 else 0.

Definition concurrency_key (data : SyncJobState) : string := organisationId data.

(** The elba client and the token a call is addressed with. *)
Definition addressed (elba : ElbaConfig) (token : option string) (ef : effect) : Prop :=
  match ef with
  | GetUsers t _ => token = Some t
  | UsersUpdate e _ | UsersDelete e _ => e = elba
  | SendEvent _ _ => True
  end.

Lemma syncUsers_addressed db getUsers data :
  Forall (addressed (elba_of data) (db !! organisationId data))
    (syncUsers db getUsers data).1.
Proof.
  destruct (db !! organisationId data) as [token|] eqn:Hdb.
  - destruct (getUsers token (page data)) as [e|pg] eqn:Hget.
    + rewrite (syncUsers_fetch_error _ _ _ _ _ Hdb Hget). repeat constructor.
    + rewrite (syncUsers_fetched _ _ _ _ _ Hdb Hget). cbn zeta.
      assert (Hpc : Forall (addressed (elba_of data) (Some token))
                      (page_calls (elba_of data) token (page data) pg)).
      { unfold page_calls. destruct (0 <? _); repeat constructor. }
      destruct (truthy (nextPage pg)); [|destruct (toISOString _)]; cbn [fst];
        rewrite ?Forall_app; repeat split; auto; repeat constructor.
  - rewrite (syncUsers_no_org _ _ _ Hdb). constructor.
Qed.

Lemma dispatch_runs (db : Database) (getUsers : UsersApi) :
  forall (fuel : nat) (data : SyncJobState),
  Forall (fun r => r.2 = syncUsers db getUsers r.1) (dispatch fuel db getUsers data).
Proof.
  induction fuel as [|f IH]; intros data; cbn [dispatch]; [constructor|].
  constructor; [reflexivity|].
  destruct (pending_event _); [apply IH|constructor].
Qed.

(** [X1] When [getUsers] throws, the invocation has called the remote once,
    with the stored token and the payload's cursor, and nothing else: no
    upsert, no delete, no event; it rethrows the error unchanged. *)
Theorem fetch_error_rethrown (db : Database) (getUsers : UsersApi)
    (data : SyncJobState) (token : string) (e : Error) :
  db !! organisationId data = Some token ->
  getUsers token (page data) = inl e ->
  syncUsers db getUsers data = ([GetUsers token (page data)], inl e).
Proof. apply syncUsers_fetch_error. Qed.

Lemma fetch_error_rethrown_witness :
  syncUsers ex_db ex_api (with_page ex_data (Some 7))
    = ([GetUsers "tok" (Some 7)], inl (MondayError "not found" (Some 404))).
Proof. apply fetch_error_rethrown; reflexivity. Defined.

(** [X2] For every invocation: it sends a continuation event exactly when
    it reports "ongoing", and it calls delete exactly when it reports
    "completed"; it sends at most one event and deletes at most once. *)
Theorem send_iff_ongoing_delete_iff_completed (db : Database) (getUsers : UsersApi)
    (data : SyncJobState) :
  let run := syncUsers db getUsers data in
  (pending_event run.1 <> None <-> run.2 = inr Ongoing) /\
  (filter is_delete run.1 <> [] <-> run.2 = inr Completed) /\
  (length (filter is_send run.1) <= 1)%nat /\
  (length (filter is_delete run.1) <= 1)%nat.
Proof.
  cbn zeta.
  destruct (db !! organisationId data) as [token|] eqn:Hdb.
  - destruct (getUsers token (page data)) as [e|pg] eqn:Hget.
    + rewrite (syncUsers_fetch_error _ _ _ _ _ Hdb Hget). cbn.
      rewrite ?decide_False by tauto.
      repeat split; try (intros H; congruence); cbn; lia.
    + rewrite (syncUsers_fetched _ _ _ _ _ Hdb Hget). cbn zeta.
      assert (Hsend : filter is_send (page_calls (elba_of data) token (page data) pg) = []).
      { unfold page_calls. destruct (0 <? _); reflexivity. }
      unfold pending_event.
      destruct (truthy (nextPage pg)); [|destruct (toISOString _)]; cbn [fst snd];
        rewrite ?omap_app, ?filter_app, omap_sent_page_calls, filter_delete_page_calls,
          Hsend; cbn; rewrite ?decide_False by tauto; rewrite ?decide_True by exact I;
        repeat split; try (intros H; congruence); cbn;
        rewrite ?decide_False by tauto; cbn; try lia.
  - rewrite (syncUsers_no_org _ _ _ Hdb). cbn.
    repeat split; try (intros H; congruence); cbn; lia.
Qed.

(** [X3] On a last page (falsy next-page value) whose payload carries a
    [syncStartedAt] outside the range of dates, the invocation still
    upserts the page's users, then throws a [RangeError] from the finalize
    step without calling delete. *)
Theorem invalid_start_time_throws_before_delete (db : Database) (getUsers : UsersApi)
    (data : SyncJobState) (token : string) (pg : UsersPage) :
  db !! organisationId data = Some token ->
  getUsers token (page data) = inr pg ->
  truthy (nextPage pg) = false ->
  maxTimeValue < Z.abs (syncStartedAt data) ->
  syncUsers db getUsers data =
    (page_calls (elba_of data) token (page data) pg,
     inl (RangeError "Invalid time value")).
Proof.
  intros Hdb Hget Hlast Hbig.
  rewrite (syncUsers_fetched _ _ _ _ _ Hdb Hget). cbn zeta. rewrite Hlast.
  unfold new_Date. replace (Z.abs (syncStartedAt data) <=? maxTimeValue) with false
    by (symmetry; apply Z.leb_gt; lia).
  reflexivity.
Qed.

Lemma invalid_start_time_throws_before_delete_witness :
  syncUsers ex_db ex_api_single ex_data_late
    = ([GetUsers "tok" None], inl (RangeError "Invalid time value")).
Proof.
  apply (invalid_start_time_throws_before_delete ex_db ex_api_single ex_data_late "tok"
           {| users := []; nextPage := None |}); reflexivity.
Defined.

(** [X4] Along every chain of delivered continuation events, every fetch
    uses the token stored for the first payload's organisation, and every
    upsert and delete goes to the elba client of the first payload's
    organisation and region. *)
Theorem chain_calls_addressed (db : Database) (getUsers : UsersApi)
    (fuel : nat) (data : SyncJobState) :
  Forall (addressed (elba_of data) (db !! organisationId data))
    (all_calls (dispatch fuel db getUsers data)).
Proof.
  unfold all_calls. apply Forall_concat, Forall_fmap.
  pose proof (dispatch_payloads db getUsers fuel data) as Hp.
  pose proof (dispatch_runs db getUsers fuel data) as Hr.
  rewrite Forall_forall in Hp, Hr |- *. intros [d run] Hin.
  pose proof (Hr _ Hin) as Hrun. pose proof (Hp _ Hin) as Hd. cbn in Hrun, Hd |- *.
  subst run. pose proof (syncUsers_addressed db getUsers d) as Ha.
  rewrite Hd in Ha at 1 2. exact Ha.
Qed.

(** [X5] Along every chain of delivered continuation events, every
    invocation runs with the priority and the concurrency key of the first
    payload. *)
Theorem chain_priority_and_key (db : Database) (getUsers : UsersApi)
    (fuel : nat) (data : SyncJobState) :
  Forall (fun r => priority r.1 = priority data /\
                   concurrency_key r.1 = concurrency_key data)
    (dispatch fuel db getUsers data).
Proof.
  eapply Forall_impl; [apply dispatch_payloads|].
  intros r ->. split; reflexivity.
Qed.

End MondayExtra.

(** * The github setup route [GET] (apps/github/src/app/setup/route.ts) *)

Module GithubSetup.

(** [env.ELBA_REDIRECT_URL] and [env.ELBA_SOURCE_ID] *)
Record Env := { ELBA_REDIRECT_URL : string; ELBA_SOURCE_ID : string }.

(** What the route reads from the request:
    [request.nextUrl.searchParams.get('installation_id')] ([null] as [None]),
    [request.cookies.get('organisation_id')?.value] and
    [request.cookies.get('region')?.value] ([undefined] as [None]). *)
Record Request := {
  installation_id_param : option string;
  organisation_id_cookie : option string;
  region_cookie : option string;
}.

(** The parsed [routeInputSchema] output, the argument of [setupOrganisation]. *)
Record SetupInput := {
  organisationId : string;
  region : string;
  installationId : Z;
}.

Inductive effect :=
  | SetupOrganisation (input : SetupInput)
  | LogWarn (message : string) (error : Error).

Section Route.

(** [z.string().uuid()] on a string: zod's uuid pattern test. *)
Variable isUuid : string -> bool.

(** [Number(s)] on a string, when it is a finite integer (the only numbers
    [.int()] accepts); [None] for NaN, infinities and fractions. *)
Variable integerOfString : string -> option Z.

(** [z.coerce.number()] followed by [.int()]: the input goes through
    [Number]; [Number(null)] is [0]. *)
Definition coerceInt (v : option string) : option Z :=
  match v with
  | None => Some 0
  | Some s => integerOfString s
  end.

(** [routeInputSchema.parse(...)]: a [ZodError] unless every field
    passes. *)
Definition zodError : Error := GenericError "ZodError".

Definition routeInputSchema_parse (req : Request) : Error + SetupInput :=
  match organisation_id_cookie req, region_cookie req,
        coerceInt (installation_id_param req) with
  | Some org, Some reg, Some n =>
      if isUuid org && negb (String.eqb reg "") && (0 <? n)
      then inr {| organisationId := org; region := reg; installationId := n |}
      else inl zodError
  | _, _, _ => inl zodError
  end.

Definition redirect_url (env : Env) (outcome : string) : string :=
  String.append (ELBA_REDIRECT_URL env)
    (String.append "?source_id=" (String.append (ELBA_SOURCE_ID env) outcome)).

Definition unauthorized_url env := redirect_url env "&error=unauthorized".
Definition internal_error_url env := redirect_url env "&error=internal_error".
Definition success_url env := redirect_url env "&success=true".

(** [GET]: the calls it makes and the URL of the [redirect] it throws
    (every path ends in one). [setupOrganisation] resolves ([None]) or
    throws. *)
Definition GET (env : Env) (setupOrganisation : SetupInput -> option Error)
    (req : Request) : list effect * string :=
  let attempt :=
    match routeInputSchema_parse req with
    | inl e => ([], Some e)
    | inr input => ([SetupOrganisation input], setupOrganisation input)
    end in
  match attempt with
  | (calls, None) => (calls, success_url env)
  | (calls, Some error) =>
      (calls ++ [LogWarn "Could not setup organisation after Github redirection" error],
       if Github.is_unauthorized error then unauthorized_url env
       else internal_error_url env)
  end.

End Route.

Definition is_setup (ef : effect) : bool :=
  match ef with SetupOrganisation _ => true | _ => false end.

End GithubSetup.

Module GithubSetupFacts.
Import GithubSetup.

Section Facts.
Variables (isUuid : string -> bool) (integerOfString : string -> option Z).

Lemma redirect_url_inj env o1 o2 :
  redirect_url env o1 = redirect_url env o2 -> o1 = o2.
Proof.
  unfold redirect_url. intros H.
  apply (inj (String.append (ELBA_REDIRECT_URL env))) in H.
  apply (inj (String.append "?source_id=")) in H.
  apply (inj (String.append (ELBA_SOURCE_ID env))) in H.
  exact H.
Qed.

Lemma parse_error_is_zod req e :
  routeInputSchema_parse isUuid integerOfString req = inl e -> e = zodError.
Proof.
  unfold routeInputSchema_parse.
  destruct (organisation_id_cookie req), (region_cookie req),
    (coerceInt integerOfString (installation_id_param req)); try congruence.
  destruct (_ && _ && _); congruence.
Qed.

(** [X6] The route calls [setupOrganisation] exactly when the request
    passes [routeInputSchema], and then exactly once, with the parsed
    input. *)
Theorem setup_called_iff_parsed (env : Env) (setupOrganisation : SetupInput -> option Error)
    (req : Request) :
  filter is_setup (GET isUuid integerOfString env setupOrganisation req).1 =
    match routeInputSchema_parse isUuid integerOfString req with
    | inr input => [SetupOrganisation input]
    | inl _ => []
    end.
Proof.
  unfold GET. destruct (routeInputSchema_parse _ _ req) as [e|input].
  - reflexivity.
  - destruct (setupOrganisation input); cbn;
      rewrite ?decide_False by tauto; rewrite ?decide_True by exact I; reflexivity.
Qed.

(** [X7] A request without the [organisation_id] or [region] cookie, with
    an empty [region], or without a positive integer [installation_id]
    (missing, which coerces to 0; not an integer number; or <= 0) is redirected to the
    [error=internal_error] URL after logging the validation error, and
    [setupOrganisation] is never called. *)
Theorem invalid_request_internal_error (env : Env)
    (setupOrganisation : SetupInput -> option Error) (req : Request) :
  organisation_id_cookie req = None \/ region_cookie req = None \/
  region_cookie req = Some "" \/ installation_id_param req = None \/
  (exists s, installation_id_param req = Some s /\ integerOfString s = None) \/
  (exists s n, installation_id_param req = Some s /\ integerOfString s = Some n /\ n <= 0) ->
  GET isUuid integerOfString env setupOrganisation req =
    ([LogWarn "Could not setup organisation after Github redirection" zodError],
     internal_error_url env).
Proof.
  intros Hbad.
  assert (Hparse : routeInputSchema_parse isUuid integerOfString req = inl zodError).
  { unfold routeInputSchema_parse.
    destruct req as [inst org reg]; cbn in Hbad |- *.
    destruct Hbad as [-> | [-> | [-> | [-> | [(s & -> & Hn) | (s & n & -> & Hn & Hle)]]]]].
    - reflexivity.
    - destruct org; reflexivity.
    - destruct org; [|reflexivity].
      destruct (coerceInt integerOfString inst); [|reflexivity].
      cbn. rewrite andb_false_r. reflexivity.
    - destruct org, reg; try reflexivity. cbn.
      rewrite andb_false_r. reflexivity.
    - cbn. rewrite Hn. destruct org, reg; reflexivity.
    - cbn. rewrite Hn. destruct org, reg; try reflexivity.
      replace (0 <? n) with false by (symmetry; apply Z.ltb_ge; lia).
      rewrite andb_false_r. reflexivity. }
  unfold GET. rewrite Hparse. reflexivity.
Qed.

(** [X8] The [error=unauthorized] redirect happens only when the request
    was valid and [setupOrganisation] threw a [RequestError] with status
    401; a validation error never leads to it. *)
Theorem unauthorized_redirect_only_from_setup (env : Env)
    (setupOrganisation : SetupInput -> option Error) (req : Request) :
  (GET isUuid integerOfString env setupOrganisation req).2 = unauthorized_url env ->
  exists input e,
    routeInputSchema_parse isUuid integerOfString req = inr input /\
    setupOrganisation input = Some e /\ Github.is_unauthorized e = true.
Proof.
  unfold GET. destruct (routeInputSchema_parse _ _ req) as [e|input] eqn:Hp; cbn.
  - apply parse_error_is_zod in Hp. subst e. cbn.
    intros H. apply redirect_url_inj in H. discriminate.
  - destruct (setupOrganisation input) as [e|] eqn:Hs; cbn.
    + destruct (Github.is_unauthorized e) eqn:Hu.
      * intros _. eauto.
      * intros H. apply redirect_url_inj in H. discriminate.
    + intros H. apply redirect_url_inj in H. discriminate.
Qed.

(** [X9] The route redirects to the [success=true] URL exactly when the
    request is valid and [setupOrganisation] resolves; it then logs
    nothing. *)
Theorem success_redirect_iff_setup_resolves (env : Env)
    (setupOrganisation : SetupInput -> option Error) (req : Request) :
  (GET isUuid integerOfString env setupOrganisation req).2 = success_url env <->
  exists input,
    routeInputSchema_parse isUuid integerOfString req = inr input /\
    setupOrganisation input = None /\
    GET isUuid integerOfString env setupOrganisation req
      = ([SetupOrganisation input], success_url env).
Proof.
  unfold GET. destruct (routeInputSchema_parse _ _ req) as [e|input] eqn:Hp; cbn.
  - apply parse_error_is_zod in Hp. subst e. cbn.
    split; [|intros (? & ? & _); discriminate].
    intros H. apply redirect_url_inj in H. discriminate.
  - destruct (setupOrganisation input) as [e|] eqn:Hs; cbn.
    + split; [|intros (? & Heq & ? & _); injection Heq as <-; congruence].
      destruct (Github.is_unauthorized e); intros H; apply redirect_url_inj in H; discriminate.
    + split; [intros _; eauto|reflexivity].
Qed.

End Facts.

(** Concrete instances for the witnesses: every string is a uuid, and
    [Number] on decimal digits. *)
Definition ex_isUuid (s : string) : bool := true.

Definition ex_integerOfString (s : string) : option Z :=
  if String.eqb s "12" then Some 12 else None.

Definition ex_env : Env := {| ELBA_REDIRECT_URL := "https://elba"; ELBA_SOURCE_ID := "src" |}.

Definition ex_request : Request := {|
  installation_id_param := Some "12";
  organisation_id_cookie := Some "45a76301-f1dd-4a77-b12f-9d7d3fca3c90";
  region_cookie := Some "us" |}.

Definition ex_setup_401 (input : SetupInput) : option Error :=
  Some (RequestError "Bad credentials" (Some 401)).

Lemma invalid_request_internal_error_witness :
  GET ex_isUuid ex_integerOfString ex_env (fun _ => None)
      {| installation_id_param := None;
         organisation_id_cookie := Some "45a76301-f1dd-4a77-b12f-9d7d3fca3c90";
         region_cookie := Some "us" |}
    = ([LogWarn "Could not setup organisation after Github redirection" zodError],
       internal_error_url ex_env).
Proof.
  apply invalid_request_internal_error. right; right; right; left. reflexivity.
Defined.

Lemma invalid_request_internal_error_witness_non_integer :
  GET ex_isUuid ex_integerOfString ex_env (fun _ => None)
      {| installation_id_param := Some "abc";
         organisation_id_cookie := Some "45a76301-f1dd-4a77-b12f-9d7d3fca3c90";
         region_cookie := Some "us" |}
    = ([LogWarn "Could not setup organisation after Github redirection" zodError],
       internal_error_url ex_env).
Proof.
  apply invalid_request_internal_error. right; right; right; right; left.
  exists "abc". split; reflexivity.
Defined.

Lemma unauthorized_redirect_only_from_setup_witness :
  (GET ex_isUuid ex_integerOfString ex_env ex_setup_401 ex_request).2
    = unauthorized_url ex_env /\
  exists input e,
    routeInputSchema_parse ex_isUuid ex_integerOfString ex_request = inr input /\
    ex_setup_401 input = Some e /\ Github.is_unauthorized e = true.
Proof.
  assert (H : (GET ex_isUuid ex_integerOfString ex_env ex_setup_401 ex_request).2
              = unauthorized_url ex_env) by reflexivity.
  split; [exact H|].
  exact (unauthorized_redirect_only_from_setup ex_isUuid ex_integerOfString
           ex_env ex_setup_401 ex_request H).
Defined.

End GithubSetupFacts.

(** * The github database schema (the migration snapshot)

    Tables [organisation] and [admin], with their primary keys, the
    unique [organisation_installation_id_unique] constraint and the
    foreign key [admin_organisation_id_organisation_id_fk] with
    [onDelete: cascade]. Timestamps are instants in ms. *)

Module Schema.

Record OrganisationRow := {
  id : string;
  region : string;
  installation_id : Z;
  account_login : string;
  created_at : Z;
}.

Record AdminRow := {
  admin_id : string;
  organisation_id : string;
  last_sync_at : Z;
  admin_created_at : Z;
}.

(** Each table keyed by its primary key. *)
Record Tables := {
  organisation : gmap string OrganisationRow;
  admin : gmap string AdminRow;
}.

Section Statements.

(** The input check of the Postgres [uuid] type on a string. *)
Variable valid_uuid : string -> bool.

(** The range of the Postgres [integer] (int4) type. *)
Definition int4_range (n : Z) : bool :=
  (-2147483648 <=? n) && (n <=? 2147483647).

Definition installation_taken (t : Tables) (n : Z) : bool :=
  existsb (fun kv => installation_id kv.2 =? n) (map_to_list (organisation t)).

(** [INSERT INTO organisation]: [None] is a failed statement (the tables
    are unchanged): a value rejected by its column type ([uuid] id, int4
    [installation_id]) or a constraint violation. *)
Definition insert_organisation (row : OrganisationRow) (t : Tables) : option Tables :=
  if negb (valid_uuid (id row)) || negb (int4_range (installation_id row)) then None
  else
  match organisation t !! id row with
  | Some _ => None (* organisation primary key *)
  | None =>
      if installation_taken t (installation_id row)
      then None (* organisation_installation_id_unique *)
      else Some {| organisation := <[id row := row]> (organisation t); admin := admin t |}
  end.

(** [INSERT INTO admin]: [organisation_id] is a [uuid]. The unique pair
    [(organisation_id, id)] cannot be violated without violating the
    primary key [id]. *)
Definition insert_admin (row : AdminRow) (t : Tables) : option Tables :=
  if negb (valid_uuid (organisation_id row)) then None
  else
  match admin t !! admin_id row with
  | Some _ => None (* admin primary key *)
  | None =>
      match organisation t !! organisation_id row with
      | None => None (* admin_organisation_id_organisation_id_fk *)
      | Some _ => Some {| organisation := organisation t;
                          admin := <[admin_id row := row]> (admin t) |}
      end
  end.

End Statements.

(** [DELETE FROM organisation WHERE id = oid], cascading to [admin]. *)
Definition delete_organisation (oid : string) (t : Tables) : Tables := {|
  organisation := delete oid (organisation t);
  admin := filter (fun kv => organisation_id kv.2 <> oid) (admin t);
|}.

(** The integrity the constraints maintain. *)
Definition well_formed (t : Tables) : Prop :=
  (forall k o, organisation t !! k = Some o -> id o = k) /\
  (forall k a, admin t !! k = Some a -> admin_id a = k) /\
  (forall k1 k2 o1 o2, organisation t !! k1 = Some o1 -> organisation t !! k2 = Some o2 ->
     installation_id o1 = installation_id o2 -> k1 = k2) /\
  (forall k a, admin t !! k = Some a -> is_Some (organisation t !! organisation_id a)).

End Schema.

Module SchemaFacts.
Import Schema.

Lemma installation_taken_spec t n :
  installation_taken t n = true <->
  exists k o, organisation t !! k = Some o /\ installation_id o = n.
Proof.
  unfold installation_taken. rewrite existsb_exists. split.
  - intros ([k o] & Hin & Heq). exists k, o. split.
    + apply elem_of_map_to_list, list_elem_of_In. exact Hin.
    + apply Z.eqb_eq. exact Heq.
  - intros (k & o & Hk & Heq). exists (k, o). split.
    + apply list_elem_of_In, elem_of_map_to_list. exact Hk.
    + apply Z.eqb_eq. exact Heq.
Qed.

Definition ex_org : OrganisationRow := {|
  id := "45a76301-f1dd-4a77-b12f-9d7d3fca3c90"; region := "us";
  installation_id := 7; account_login := "some-login"; created_at := 0 |}.

Definition ex_admin : AdminRow := {|
  admin_id := "u1"; organisation_id := "45a76301-f1dd-4a77-b12f-9d7d3fca3c90";
  last_sync_at := 0; admin_created_at := 0 |}.

Definition ex_tables : Tables := {|
  organisation := {[ id ex_org := ex_org ]};
  admin := {[ admin_id ex_admin := ex_admin ]} |}.

Lemma ex_tables_well_formed : well_formed ex_tables.
Proof.
  unfold well_formed, ex_tables; cbn. repeat split.
  - intros k o Hk. apply lookup_singleton_Some in Hk as [<- <-]. reflexivity.
  - intros k a Hk. apply lookup_singleton_Some in Hk as [<- <-]. reflexivity.
  - intros k1 k2 o1 o2 H1 H2 _.
    apply lookup_singleton_Some in H1 as [<- _]. apply lookup_singleton_Some in H2 as [<- _].
    reflexivity.
  - intros k a Hk. apply lookup_singleton_Some in Hk as [<- <-].
    exists ex_org. reflexivity.
Qed.

(** [X10] The three statements keep the tables' integrity: rows stored
    under their primary key, installation ids unique among organisations,
    every admin pointing to an existing organisation. *)
Theorem statements_keep_integrity (valid_uuid : string -> bool) (t : Tables) :
  well_formed t ->
  (forall row t', insert_organisation valid_uuid row t = Some t' -> well_formed t') /\
  (forall row t', insert_admin valid_uuid row t = Some t' -> well_formed t') /\
  (forall oid, well_formed (delete_organisation oid t)).
Proof.
  intros (Hko & Hka & Huniq & Hfk). split; [|split].
  - intros row t'. unfold insert_organisation.
    destruct (negb _ || negb _); [discriminate|].
    destruct (organisation t !! id row) eqn:Hid; [discriminate|].
    destruct (installation_taken t (installation_id row)) eqn:Htaken; [discriminate|].
    intros [= <-].
    assert (Hfree : forall k o, organisation t !! k = Some o ->
                      installation_id o <> installation_id row).
    { intros k o Hk Heq. assert (installation_taken t (installation_id row) = true)
        by (apply installation_taken_spec; eauto). congruence. }
    unfold well_formed; cbn. repeat split.
    + intros k o Hk. apply lookup_insert_Some in Hk as [[<- <-]|[_ Hk]]; eauto.
    + exact Hka.
    + intros k1 k2 o1 o2 H1 H2 Heq.
      apply lookup_insert_Some in H1 as [[<- <-]|[Hne1 H1]];
        apply lookup_insert_Some in H2 as [[<- <-]|[Hne2 H2]]; try reflexivity.
      * exfalso. apply (Hfree _ _ H2). congruence.
      * exfalso. apply (Hfree _ _ H1). congruence.
      * eauto.
    + intros k a Hk. destruct (Hfk k a Hk) as [o Ho].
      destruct (decide (id row = organisation_id a)) as [<-|Hne];
        [rewrite lookup_insert_eq; eauto|].
      rewrite lookup_insert_ne by exact Hne. eauto.
  - intros row t'. unfold insert_admin.
    destruct (negb _); [discriminate|].
    destruct (admin t !! admin_id row) eqn:Hid; [discriminate|].
    destruct (organisation t !! organisation_id row) as [o|] eqn:Horg; [|discriminate].
    intros [= <-]. unfold well_formed; cbn. repeat split; [exact Hko| |exact Huniq|].
    + intros k a Hk. apply lookup_insert_Some in Hk as [[<- <-]|[_ Hk]]; eauto.
    + intros k a Hk. apply lookup_insert_Some in Hk as [[<- <-]|[_ Hk]]; eauto.
  - intros oid. unfold well_formed, delete_organisation; cbn. repeat split.
    + intros k o Hk. apply lookup_delete_Some in Hk as [_ Hk]. eauto.
    + intros k a Hk. apply map_lookup_filter_Some in Hk as [Hk _]. eauto.
    + intros k1 k2 o1 o2 H1 H2 Heq.
      apply lookup_delete_Some in H1 as [_ H1]. apply lookup_delete_Some in H2 as [_ H2]. eauto.
    + intros k a Hk. apply map_lookup_filter_Some in Hk as [Hk Hne]. cbn in Hne.
      rewrite lookup_delete_ne by congruence. eauto.
Qed.

Lemma statements_keep_integrity_witness :
  well_formed ex_tables /\ well_formed (delete_organisation (id ex_org) ex_tables).
Proof.
  split; [exact ex_tables_well_formed|].
  apply (statements_keep_integrity (fun _ => true) ex_tables ex_tables_well_formed).
Defined.

End SchemaFacts.
